(** * PrivateRetirementPlanner: the request/callback protocol of the contract

    A shallow embedding of the Solidity contract [PrivateRetirementPlanner]
    (the contract body that follows the React front end in [App.tsx]) and
    the properties of its protocol, followed by the values the dashboard of
    the front end derives from its list of plans.

    Storage is the pair of mappings the contract declares.  A transaction is
    a function from the storage to either a revert or a returned value, a new
    storage and the log of what the call emitted and requested.  The FHE
    library and the ABI decoder are not part of the repository: they are the
    fields of two interfaces, and every theorem holds for all their
    implementations. *)

From Stdlib Require Import ZArith List String Bool.
From stdpp Require Import gmap.
Import ListNotations.

Local Open Scope Z_scope.

(** ** Solidity value types *)

(** [address] is a 160-bit and [uint256], [bytes32] a 256-bit integer;
    [uint32] a 32-bit one.  The contract does no arithmetic on any of them. *)
Abbreviation address := Z (only parsing).
Abbreviation uint256 := Z (only parsing).
Abbreviation uint32 := Z (only parsing).
Abbreviation bytes32 := Z (only parsing).

(** [bytes memory] *)
Abbreviation bytes := (list Byte.byte) (only parsing).

(** The library declares [type euint32 is bytes32]: a ciphertext handle. *)
Abbreviation euint32 := Z (only parsing).

(** The two callback selectors the contract passes to the library. *)
Inductive Selector : Type :=
| runSimulation_selector
| decryptStrategy_selector.

(** ** The interfaces the contract calls *)

(** [FHE] of [@fhevm/solidity/lib/FHE.sol].  [checkSignatures] reverts or
    returns; here it returns whether it accepts, as a function of the request
    identifier, the payload and the proof: the verifier keeps no state from
    one call to the next.  The handle [0] is the value of a storage slot
    never written, and the library treats it as not initialised. *)
Class FHELib : Type := {
  isInitialized : euint32 -> bool;
  asEuint32 : uint32 -> euint32;
  toBytes32 : euint32 -> bytes32;
  checkSignatures : uint256 -> bytes -> bytes -> bool;
  isInitialized_zero : isInitialized 0 = false
}.

(** [abi.decode(data, (uint32[]))] and [abi.decode(data, (uint32))]: [None]
    when the decoder reverts. *)
Class AbiDecoder : Type := {
  abi_decode_uint32_array : bytes -> option (list uint32);
  abi_decode_uint32 : bytes -> option uint32
}.

(** ** Storage *)

Record EncryptedFinancialData : Type := {
  encryptedAssets : euint32;
  encryptedAnnualIncome : euint32;
  encryptedRetirementAge : euint32;
  encryptedLifeExpectancy : euint32;
  encryptedTargetIncome : euint32
}.

Record SimulationResult : Type := {
  encryptedStrategy : euint32;
  encryptedWithdrawal : euint32;
  encryptedSuccessRate : euint32;
  isSimulated : bool
}.

(** A mapping slot that was never written reads as the all-zero struct. *)
#[global] Instance EncryptedFinancialData_inhabited : Inhabited EncryptedFinancialData :=
  populate {| encryptedAssets := 0; encryptedAnnualIncome := 0;
              encryptedRetirementAge := 0; encryptedLifeExpectancy := 0;
              encryptedTargetIncome := 0 |}.

#[global] Instance SimulationResult_inhabited : Inhabited SimulationResult :=
  populate {| encryptedStrategy := 0; encryptedWithdrawal := 0;
              encryptedSuccessRate := 0; isSimulated := false |}.

Record Storage : Type := {
  userFinancialData : gmap Z EncryptedFinancialData;
  simulationResults : gmap Z SimulationResult
}.

(** The storage of the freshly deployed contract. *)
Definition empty_storage : Storage :=
  {| userFinancialData := ∅; simulationResults := ∅ |}.

(** ** Constants *)

Definition FIXED_PERCENTAGE : uint32 := 1.
Definition INFLATION_ADJUSTED : uint32 := 2.
Definition DYNAMIC_SPENDING : uint32 := 3.
Definition SIMULATION_YEARS : uint32 := 30.
Definition DEFAULT_RETURN_RATE : uint32 := 5.

(** ** Events and requests *)

(** Every event of the contract has the one indexed field [user]. *)
Inductive Event : Type :=
| FinancialDataSubmitted (user : address)
| SimulationRequested (user : address)
| SimulationCompleted (user : address)
| StrategyDecrypted (user : address).

(** What a call leaves behind besides the storage: the events it emits and
    the requests it hands to the library. *)
Inductive Effect : Type :=
| Emit (e : Event)
| RequestComputation (ciphertexts : list bytes32) (callback : Selector)
| RequestDecryption (ciphertexts : list bytes32) (callback : Selector).

(** ** Reverts *)

Inductive Error : Type :=
| RequireFailed (reason : string)   (* require(cond, reason) *)
| SignaturesRejected                (* FHE.checkSignatures reverted *)
| AbiDecodeFailed                   (* abi.decode reverted *)
| ArrayOutOfBounds.                 (* Panic(0x32): index past the length *)

(** The names the specification gives to the reverts of the contract. *)
Definition DataOwnerRequired : Error := RequireFailed "No data submitted".
Definition AlreadySimulated : Error := RequireFailed "Simulation already completed".
Definition SimulationNotCompleted : Error := RequireFailed "Simulation not completed".
Definition InvalidProof : Error := SignaturesRejected.

(** ** The transaction monad *)

Inductive Result (A : Type) : Type :=
| Reverted (e : Error)
| Returned (a : A) (s : Storage) (log : list Effect).

Arguments Reverted {A} e.
Arguments Returned {A} a s log.

Definition Tx (A : Type) : Type := Storage -> Result A.

Definition ret {A : Type} (a : A) : Tx A := fun s => Returned a s [].

Definition bind {A B : Type} (m : Tx A) (k : A -> Tx B) : Tx B :=
  fun s =>
    match m s with
    | Reverted e => Reverted e
    | Returned a s1 log1 =>
        match k a s1 with
        | Reverted e => Reverted e
        | Returned b s2 log2 => Returned b s2 (log1 ++ log2)
        end
    end.

Declare Scope tx_scope.
Delimit Scope tx_scope with tx.
Notation "x <- m ;; k" := (bind m (fun x => k))
  (at level 100, m at next level, right associativity) : tx_scope.
Notation "m ;; k" := (bind m (fun _ => k))
  (at level 100, right associativity) : tx_scope.

Definition revert {A : Type} (e : Error) : Tx A := fun _ => Reverted e.

Definition require (cond : bool) (reason : string) : Tx unit :=
  if cond then ret tt else revert (RequireFailed reason).

Definition emit (e : Event) : Tx unit := fun s => Returned tt s [Emit e].

Definition request (r : Effect) : Tx unit := fun s => Returned tt s [r].

(** [userFinancialData[user]] and [simulationResults[user]], read. *)
Definition get_userFinancialData (user : address) : Tx EncryptedFinancialData :=
  fun s => Returned (userFinancialData s !!! user) s [].

Definition get_simulationResults (user : address) : Tx SimulationResult :=
  fun s => Returned (simulationResults s !!! user) s [].

(** [userFinancialData[user] = d] and [simulationResults[user] = r]. *)
Definition set_userFinancialData (user : address) (d : EncryptedFinancialData) : Tx unit :=
  fun s => Returned tt {| userFinancialData := <[user := d]> (userFinancialData s);
                          simulationResults := simulationResults s |} [].

Definition set_simulationResults (user : address) (r : SimulationResult) : Tx unit :=
  fun s => Returned tt {| userFinancialData := userFinancialData s;
                          simulationResults := <[user := r]> (simulationResults s) |} [].

(** [a[i]] on a memory array: a panic past the end. *)
Definition index (a : list uint32) (i : nat) : Tx uint32 :=
  match nth_error a i with
  | Some v => ret v
  | None => revert ArrayOutOfBounds
  end.

(** A decoder's result, lifted. *)
Definition decoded {A : Type} (o : option A) : Tx A :=
  match o with
  | Some v => ret v
  | None => revert AbiDecodeFailed
  end.

(** Whether a call returned, and what it logged. *)
Definition returned {A : Type} (r : Result A) : bool :=
  match r with
  | Returned _ _ _ => true
  | Reverted _ => false
  end.

Definition log_of {A : Type} (r : Result A) : list Effect :=
  match r with
  | Returned _ _ log => log
  | Reverted _ => []
  end.

(** ** The contract *)

Section Contract.

Context {fhe : FHELib} {abi : AbiDecoder}.

Local Open Scope tx_scope.

(** [modifier onlyDataOwner()] *)
Definition onlyDataOwner {A : Type} (sender : address) (body : Tx A) : Tx A :=
  data <- get_userFinancialData sender ;;
  require (isInitialized (encryptedAssets data)) "No data submitted" ;;
  body.

Definition submitEncryptedData (sender : address)
  (encryptedAssets' encryptedAnnualIncome' encryptedRetirementAge'
   encryptedLifeExpectancy' encryptedTargetIncome' : euint32) : Tx unit :=
  set_userFinancialData sender
    {| encryptedAssets := encryptedAssets';
       encryptedAnnualIncome := encryptedAnnualIncome';
       encryptedRetirementAge := encryptedRetirementAge';
       encryptedLifeExpectancy := encryptedLifeExpectancy';
       encryptedTargetIncome := encryptedTargetIncome' |} ;;
  set_simulationResults sender
    {| encryptedStrategy := asEuint32 0;
       encryptedWithdrawal := asEuint32 0;
       encryptedSuccessRate := asEuint32 0;
       isSimulated := false |} ;;
  emit (FinancialDataSubmitted sender).

(** The request identifier the library returns is bound to the local [reqId]
    and never read: the call leaves the request in the log and nothing in the
    storage. *)
Definition requestRetirementSimulation (sender : address) : Tx unit :=
  onlyDataOwner sender (
    result <- get_simulationResults sender ;;
    require (negb (isSimulated result)) "Simulation already completed" ;;
    data <- get_userFinancialData sender ;;
    request (RequestComputation
               [ toBytes32 (encryptedAssets data);
                 toBytes32 (encryptedAnnualIncome data);
                 toBytes32 (encryptedRetirementAge data);
                 toBytes32 (encryptedLifeExpectancy data);
                 toBytes32 (encryptedTargetIncome data) ]
               runSimulation_selector) ;;
    emit (SimulationRequested sender)).

Definition runSimulation (sender : address)
  (requestId : uint256) (results proof : bytes) : Tx unit :=
  (if checkSignatures requestId results proof then ret tt
   else revert SignaturesRejected) ;;
  simResults <- decoded (abi_decode_uint32_array results) ;;
  let user := sender in
  r0 <- index simResults 0 ;;
  r1 <- index simResults 1 ;;
  r2 <- index simResults 2 ;;
  set_simulationResults user
    {| encryptedStrategy := asEuint32 r0;
       encryptedWithdrawal := asEuint32 r1;
       encryptedSuccessRate := asEuint32 r2;
       isSimulated := true |} ;;
  emit (SimulationCompleted user).

Definition requestStrategyDecryption (sender : address) : Tx unit :=
  onlyDataOwner sender (
    result <- get_simulationResults sender ;;
    require (isSimulated result) "Simulation not completed" ;;
    result' <- get_simulationResults sender ;;
    request (RequestDecryption [ toBytes32 (encryptedStrategy result') ]
                               decryptStrategy_selector)).

(** The decoded [strategy] is a local that nothing reads. *)
Definition decryptStrategy (sender : address)
  (requestId : uint256) (cleartexts proof : bytes) : Tx unit :=
  (if checkSignatures requestId cleartexts proof then ret tt
   else revert SignaturesRejected) ;;
  strategy <- decoded (abi_decode_uint32 cleartexts) ;;
  emit (StrategyDecrypted sender).

Definition getEncryptedWithdrawal (sender : address) : Tx euint32 :=
  onlyDataOwner sender (
    result <- get_simulationResults sender ;;
    ret (encryptedWithdrawal result)).

Definition getEncryptedSuccessRate (sender : address) : Tx euint32 :=
  onlyDataOwner sender (
    result <- get_simulationResults sender ;;
    ret (encryptedSuccessRate result)).

(** The storage a simulation callback leaves when it returns. *)
Definition completed (s : Storage) (a : address) (r0 r1 r2 : uint32) : Storage :=
  {| userFinancialData := userFinancialData s;
     simulationResults :=
       <[a := {| encryptedStrategy := asEuint32 r0;
                 encryptedWithdrawal := asEuint32 r1;
                 encryptedSuccessRate := asEuint32 r2;
                 isSimulated := true |}]> (simulationResults s) |}.

(** ** Transactions and histories *)

(** The external functions of the contract, with their arguments. *)
Inductive Call : Type :=
| CallSubmitEncryptedData (a1 a2 a3 a4 a5 : euint32)
| CallRequestRetirementSimulation
| CallRunSimulation (requestId : uint256) (results proof : bytes)
| CallRequestStrategyDecryption
| CallDecryptStrategy (requestId : uint256) (cleartexts proof : bytes)
| CallGetEncryptedWithdrawal
| CallGetEncryptedSuccessRate.

Record Transaction : Type := { sender_of : address; call_of : Call }.

(** The storage and log a call leaves; a view function's value is dropped. *)
Definition forget {A : Type} (m : Tx A) : Tx unit := _ <- m ;; ret tt.

Definition dispatch (t : Transaction) : Tx unit :=
  let sender := sender_of t in
  match call_of t with
  | CallSubmitEncryptedData a1 a2 a3 a4 a5 => submitEncryptedData sender a1 a2 a3 a4 a5
  | CallRequestRetirementSimulation => requestRetirementSimulation sender
  | CallRunSimulation requestId results proof => runSimulation sender requestId results proof
  | CallRequestStrategyDecryption => requestStrategyDecryption sender
  | CallDecryptStrategy requestId cleartexts proof => decryptStrategy sender requestId cleartexts proof
  | CallGetEncryptedWithdrawal => forget (getEncryptedWithdrawal sender)
  | CallGetEncryptedSuccessRate => forget (getEncryptedSuccessRate sender)
  end.

(** A transaction that reverts leaves the storage as it was. *)
Definition apply_tx (s : Storage) (t : Transaction) : Storage :=
  match dispatch t s with
  | Reverted _ => s
  | Returned _ s' _ => s'
  end.

Definition run (s : Storage) (history : list Transaction) : Storage :=
  fold_left apply_tx history s.

(** [isSubmitBy a t]: [t] is a call of [submitEncryptedData] sent by [a]. *)
Definition isSubmitBy (a : address) (t : Transaction) : bool :=
  match call_of t with
  | CallSubmitEncryptedData _ _ _ _ _ => Z.eqb (sender_of t) a
  | _ => false
  end.

(** What the modifier tests, as a predicate on the storage. *)
Definition isDataOwner (s : Storage) (a : address) : bool :=
  isInitialized (encryptedAssets (userFinancialData s !!! a)).

End Contract.

(** The record [a] submitted last in a history, if it submitted any. *)
Fixpoint last_submission (a : address) (history : list Transaction)
  : option EncryptedFinancialData :=
  match history with
  | [] => None
  | t :: rest =>
      match last_submission a rest with
      | Some d => Some d
      | None =>
          match call_of t with
          | CallSubmitEncryptedData a1 a2 a3 a4 a5 =>
              if Z.eqb (sender_of t) a
              then Some {| encryptedAssets := a1; encryptedAnnualIncome := a2;
                           encryptedRetirementAge := a3; encryptedLifeExpectancy := a4;
                           encryptedTargetIncome := a5 |}
              else None
          | _ => None
          end
      end
  end.

(** ** A reference implementation of the two interfaces

    The standard ABI layout for the decoder, and a library whose handles and
    proofs are transparent.  The examples below run the contract on them. *)

Module Reference.

Definition byte_of_Z (z : Z) : Byte.byte :=
  match Byte.of_N (Z.to_N (z mod 256)) with
  | Some b => b
  | None => Byte.x00
  end.

Definition Z_of_byte (b : Byte.byte) : Z := Z.of_N (Byte.to_N b).

(** [n] bytes, big-endian. *)
Fixpoint word_of_Z (n : nat) (z : Z) : list Byte.byte :=
  match n with
  | O => []
  | S n' => word_of_Z n' (z / 256) ++ [byte_of_Z z]
  end.

Definition Z_of_word (w : list Byte.byte) : Z :=
  fold_left (fun acc b => acc * 256 + Z_of_byte b) w 0.

(** [abi.encode(uint32)] and [abi.encode(uint32[])]: one 32-byte word; the
    offset [0x20], the length, and a word for each element. *)
Definition abi_encode_uint32 (v : uint32) : list Byte.byte := word_of_Z 32 v.

Definition abi_encode_uint32_array (l : list uint32) : list Byte.byte :=
  word_of_Z 32 32 ++ word_of_Z 32 (Z.of_nat (length l)) ++ flat_map (word_of_Z 32) l.

Definition read_word (data : list Byte.byte) (offset : nat) : option Z :=
  let w := firstn 32 (skipn offset data) in
  if Nat.eqb (length w) 32 then Some (Z_of_word w) else None.

Fixpoint read_uint32s (data : list Byte.byte) (offset n : nat) : option (list Z) :=
  match n with
  | O => Some []
  | S n' =>
      match read_word data offset with
      | Some v =>
          if v <? 2 ^ 32
          then match read_uint32s data (offset + 32) n' with
               | Some l => Some (v :: l)
               | None => None
               end
          else None
      | None => None
      end
  end.

Definition decode_uint32 (data : list Byte.byte) : option Z :=
  match read_word data 0 with
  | Some v => if v <? 2 ^ 32 then Some v else None
  | None => None
  end.

Definition decode_uint32_array (data : list Byte.byte) : option (list Z) :=
  match read_word data 0 with
  | Some off =>
      if off <? 2 ^ 64
      then match read_word data (Z.to_nat off) with
           | Some len =>
               if len <? 2 ^ 64
               then read_uint32s data (Z.to_nat off + 32) (Z.to_nat len)
               else None
           | None => None
           end
      else None
  | None => None
  end.

#[export] Instance abi : AbiDecoder :=
  {| abi_decode_uint32_array := decode_uint32_array;
     abi_decode_uint32 := decode_uint32 |}.

Fixpoint bytes_eqb (x y : list Byte.byte) : bool :=
  match x, y with
  | [], [] => true
  | b :: x', c :: y' => Byte.eqb b c && bytes_eqb x' y'
  | _, _ => false
  end.

(** The proof this library accepts for a payload: the request identifier as
    a word, then the payload. *)
Definition sign (requestId : uint256) (payload : list Byte.byte) : list Byte.byte :=
  word_of_Z 32 requestId ++ payload.

(** A handle is the value tagged with bit 32, so no handle is [0]. *)
#[export] Instance fhe : FHELib :=
  {| isInitialized := fun h => negb (h =? 0);
     asEuint32 := fun v => 2 ^ 32 + v;
     toBytes32 := fun h => h;
     checkSignatures := fun requestId payload proof =>
                          bytes_eqb proof (sign requestId payload);
     isInitialized_zero := eq_refl |}.

(** Three users and the values the examples use. *)
Definition alice : address := 1.
Definition bob : address := 2.
Definition relayer : address := 3.

Definition submit_by (a : address) : Transaction :=
  {| sender_of := a;
     call_of := CallSubmitEncryptedData (asEuint32 500000) (asEuint32 60000)
                  (asEuint32 65) (asEuint32 90) (asEuint32 40000) |}.

Definition request_by (a : address) : Transaction :=
  {| sender_of := a; call_of := CallRequestRetirementSimulation |}.

(** A callback with a proof the library accepts, delivered by [a]. *)
Definition callback_by (a : address) (requestId : uint256) (values : list uint32)
  : Transaction :=
  let results := abi_encode_uint32_array values in
  {| sender_of := a;
     call_of := CallRunSimulation requestId results (sign requestId results) |}.

Definition cleartext_by (a : address) (requestId : uint256) (strategy : uint32)
  : Transaction :=
  let cleartexts := abi_encode_uint32 strategy in
  {| sender_of := a;
     call_of := CallDecryptStrategy requestId cleartexts (sign requestId cleartexts) |}.

End Reference.

(** The address an event carries. *)
Definition event_user (e : Event) : address :=
  match e with
  | FinancialDataSubmitted user => user
  | SimulationRequested user => user
  | SimulationCompleted user => user
  | StrategyDecrypted user => user
  end.

(** The [SimulationResult] a submission leaves: three handles of zero. *)
Definition reset_result {fhe : FHELib} : SimulationResult :=
  {| encryptedStrategy := asEuint32 0; encryptedWithdrawal := asEuint32 0;
     encryptedSuccessRate := asEuint32 0; isSimulated := false |}.

(** ** The dashboard of the front end

    The values the component [App] derives from its state on every render:
    the two counters, the list the search box leaves, and the condition of
    the archive button.  A JavaScript string is a [string]; [toLowerCase] is
    the method of the language and stays a parameter. *)

Module Dashboard.

Record RetirementPlan : Type := {
  id : string;
  encryptedAssets : string;
  retirementGoal : string;
  withdrawalStrategy : string;
  cashflowProjection : string;
  timestamp : Z;
  owner : string;
  status : string
}.

(** [s.includes(sub)]: [sub] occurs in [s] at some position. *)
Fixpoint includes (s sub : string) : bool :=
  String.prefix sub s
  || match s with
     | EmptyString => false
     | String _ s' => includes s' sub
     end.

Section Derived.

Variable toLowerCase : string -> string.

Definition activePlans (plans : list RetirementPlan) : nat :=
  length (List.filter (fun p => String.eqb (status p) "active") plans).

Definition archivedPlans (plans : list RetirementPlan) : nat :=
  length (List.filter (fun p => String.eqb (status p) "archived") plans).

Definition filteredPlans (plans : list RetirementPlan) (searchTerm : string)
  : list RetirementPlan :=
  List.filter
    (fun plan =>
       includes (toLowerCase (retirementGoal plan)) (toLowerCase searchTerm)
       || includes (toLowerCase (withdrawalStrategy plan)) (toLowerCase searchTerm))
    plans.

Definition isOwner (account address : string) : bool :=
  String.eqb (toLowerCase account) (toLowerCase address).

(** [isOwner(plan.owner) && plan.status === "active"], the condition under
    which a card shows its archive button. *)
Definition showsArchive (account : string) (plan : RetirementPlan) : bool :=
  isOwner account (owner plan) && String.eqb (status plan) "active".

End Derived.

(** [toLowerCase] on the letters [A] to [Z], for the examples. *)
Definition lower_ascii (c : Ascii.ascii) : Ascii.ascii :=
  let n := Ascii.nat_of_ascii c in
  if (Nat.leb 65 n && Nat.leb n 90)%bool then Ascii.ascii_of_nat (n + 32) else c.

Fixpoint lower (s : string) : string :=
  match s with
  | EmptyString => EmptyString
  | String c s' => String (lower_ascii c) (lower s')
  end.

Definition sample (goal strategy state : string) : RetirementPlan :=
  {| id := "1"; encryptedAssets := "FHE-e30="; retirementGoal := goal;
     withdrawalStrategy := strategy; cashflowProjection := "";
     timestamp := 0; owner := "0xAb"; status := state |}.

Definition sample_plans : list RetirementPlan :=
  [ sample "Retire at 60 in Lisbon" "conservative" "active";
    sample "Travel fund" "aggressive" "archived";
    sample "Early retirement" "moderate" "pending" ].

End Dashboard.

(** * Properties *)

Section Protocol.

Context {fhe : FHELib} {abi : AbiDecoder}.

(** ** What each function computes *)

Lemma onlyDataOwner_outcome {A : Type} (a : address) (body : Tx A) (s : Storage) :
  onlyDataOwner a body s
  = if isDataOwner s a then body s else Reverted DataOwnerRequired.
Proof.
  unfold onlyDataOwner, isDataOwner, bind, get_userFinancialData, require.
  destruct (isInitialized _); cbn; [| reflexivity].
  destruct (body s); reflexivity.
Qed.

Lemma submitEncryptedData_outcome (a : address) (a1 a2 a3 a4 a5 : euint32) (s : Storage) :
  submitEncryptedData a a1 a2 a3 a4 a5 s
  = Returned tt
      {| userFinancialData :=
           <[a := {| encryptedAssets := a1; encryptedAnnualIncome := a2;
                     encryptedRetirementAge := a3; encryptedLifeExpectancy := a4;
                     encryptedTargetIncome := a5 |}]> (userFinancialData s);
         simulationResults :=
           <[a := {| encryptedStrategy := asEuint32 0;
                     encryptedWithdrawal := asEuint32 0;
                     encryptedSuccessRate := asEuint32 0;
                     isSimulated := false |}]> (simulationResults s) |}
      [Emit (FinancialDataSubmitted a)].
Proof. reflexivity. Qed.

Lemma requestRetirementSimulation_outcome (a : address) (s : Storage) :
  requestRetirementSimulation a s
  = if isDataOwner s a
    then if isSimulated (simulationResults s !!! a)
         then Reverted AlreadySimulated
         else Returned tt s
                [ RequestComputation
                    [ toBytes32 (encryptedAssets (userFinancialData s !!! a));
                      toBytes32 (encryptedAnnualIncome (userFinancialData s !!! a));
                      toBytes32 (encryptedRetirementAge (userFinancialData s !!! a));
                      toBytes32 (encryptedLifeExpectancy (userFinancialData s !!! a));
                      toBytes32 (encryptedTargetIncome (userFinancialData s !!! a)) ]
                    runSimulation_selector;
                  Emit (SimulationRequested a) ]
    else Reverted DataOwnerRequired.
Proof.
  unfold requestRetirementSimulation. rewrite onlyDataOwner_outcome.
  destruct (isDataOwner s a); [| reflexivity].
  unfold bind, get_simulationResults, require.
  destruct (isSimulated _); reflexivity.
Qed.

Lemma requestStrategyDecryption_outcome (a : address) (s : Storage) :
  requestStrategyDecryption a s
  = if isDataOwner s a
    then if isSimulated (simulationResults s !!! a)
         then Returned tt s
                [ RequestDecryption
                    [ toBytes32 (encryptedStrategy (simulationResults s !!! a)) ]
                    decryptStrategy_selector ]
         else Reverted SimulationNotCompleted
    else Reverted DataOwnerRequired.
Proof.
  unfold requestStrategyDecryption. rewrite onlyDataOwner_outcome.
  destruct (isDataOwner s a); [| reflexivity].
  unfold bind, get_simulationResults, require.
  destruct (isSimulated _); reflexivity.
Qed.

Lemma runSimulation_outcome (a : address) (requestId : uint256)
  (results proof : bytes) (s : Storage) :
  runSimulation a requestId results proof s
  = if checkSignatures requestId results proof
    then match abi_decode_uint32_array results with
         | None => Reverted AbiDecodeFailed
         | Some (r0 :: r1 :: r2 :: _) =>
             Returned tt (completed s a r0 r1 r2) [Emit (SimulationCompleted a)]
         | Some _ => Reverted ArrayOutOfBounds
         end
    else Reverted SignaturesRejected.
Proof.
  unfold runSimulation, bind.
  destruct (checkSignatures _ _ _); cbn; [| reflexivity].
  destruct (abi_decode_uint32_array results) as [l |]; cbn; [| reflexivity].
  destruct l as [| r0 [| r1 [| r2 rest]]]; reflexivity.
Qed.

Lemma decryptStrategy_outcome (a : address) (requestId : uint256)
  (cleartexts proof : bytes) (s : Storage) :
  decryptStrategy a requestId cleartexts proof s
  = if checkSignatures requestId cleartexts proof
    then match abi_decode_uint32 cleartexts with
         | None => Reverted AbiDecodeFailed
         | Some _ => Returned tt s [Emit (StrategyDecrypted a)]
         end
    else Reverted SignaturesRejected.
Proof.
  unfold decryptStrategy, bind.
  destruct (checkSignatures _ _ _); cbn; [| reflexivity].
  destruct (abi_decode_uint32 cleartexts); reflexivity.
Qed.

Lemma getEncryptedWithdrawal_outcome (a : address) (s : Storage) :
  getEncryptedWithdrawal a s
  = if isDataOwner s a
    then Returned (encryptedWithdrawal (simulationResults s !!! a)) s []
    else Reverted DataOwnerRequired.
Proof. unfold getEncryptedWithdrawal. now rewrite onlyDataOwner_outcome. Qed.

Lemma getEncryptedSuccessRate_outcome (a : address) (s : Storage) :
  getEncryptedSuccessRate a s
  = if isDataOwner s a
    then Returned (encryptedSuccessRate (simulationResults s !!! a)) s []
    else Reverted DataOwnerRequired.
Proof. unfold getEncryptedSuccessRate. now rewrite onlyDataOwner_outcome. Qed.

(** ** Histories *)

Lemma run_cons (s : Storage) (t : Transaction) (history : list Transaction) :
  run s (t :: history) = run (apply_tx s t) history.
Proof. reflexivity. Qed.

Lemma run_app (s : Storage) (h1 h2 : list Transaction) :
  run s (h1 ++ h2) = run (run s h1) h2.
Proof. unfold run. apply fold_left_app. Qed.

(** Only [submitEncryptedData] writes a financial record, and only the
    sender's. *)
Lemma apply_tx_userFinancialData (s : Storage) (t : Transaction) (a : address) :
  userFinancialData (apply_tx s t) !!! a
  = match call_of t with
    | CallSubmitEncryptedData a1 a2 a3 a4 a5 =>
        if Z.eqb (sender_of t) a
        then {| encryptedAssets := a1; encryptedAnnualIncome := a2;
                encryptedRetirementAge := a3; encryptedLifeExpectancy := a4;
                encryptedTargetIncome := a5 |}
        else userFinancialData s !!! a
    | _ => userFinancialData s !!! a
    end.
Proof.
  unfold apply_tx, dispatch. destruct t as [b c]; cbn [sender_of call_of].
  destruct c.
  - rewrite submitEncryptedData_outcome. cbn.
    destruct (Z.eqb_spec b a) as [-> | Hne].
    + apply lookup_total_insert_eq.
    + now apply lookup_total_insert_ne.
  - rewrite requestRetirementSimulation_outcome.
    destruct (isDataOwner s b), (isSimulated (simulationResults s !!! b)); reflexivity.
  - rewrite runSimulation_outcome.
    destruct (checkSignatures _ _ _); [| reflexivity].
    destruct (abi_decode_uint32_array results) as [[| r0 [| r1 [| r2 rest]]] |];
      reflexivity.
  - rewrite requestStrategyDecryption_outcome.
    destruct (isDataOwner s b), (isSimulated (simulationResults s !!! b)); reflexivity.
  - rewrite decryptStrategy_outcome.
    destruct (checkSignatures _ _ _), (abi_decode_uint32 cleartexts); reflexivity.
  - unfold forget, bind. rewrite getEncryptedWithdrawal_outcome.
    destruct (isDataOwner s b); reflexivity.
  - unfold forget, bind. rewrite getEncryptedSuccessRate_outcome.
    destruct (isDataOwner s b); reflexivity.
Qed.

Lemma run_userFinancialData (history : list Transaction) (s : Storage) (a : address) :
  userFinancialData (run s history) !!! a
  = match last_submission a history with
    | Some d => d
    | None => userFinancialData s !!! a
    end.
Proof.
  revert s. induction history as [| t rest IH]; intros s; [reflexivity |].
  rewrite run_cons, IH. cbn [last_submission].
  destruct (last_submission a rest); [reflexivity |].
  rewrite apply_tx_userFinancialData.
  destruct (call_of t); try reflexivity.
  destruct (sender_of t =? a); reflexivity.
Qed.

Lemma last_submission_none (a : address) (history : list Transaction) :
  forallb (fun t => negb (isSubmitBy a t)) history = true ->
  last_submission a history = None.
Proof.
  induction history as [| t rest IH]; cbn; [reflexivity |].
  intros [Ht Hrest]%andb_true_iff. rewrite (IH Hrest).
  unfold isSubmitBy in Ht. destruct (call_of t); try reflexivity.
  destruct (sender_of t =? a); [discriminate | reflexivity].
Qed.

(** Nobody owns data in a history in which they submitted nothing. *)
Lemma not_data_owner_without_submit (a : address) (history : list Transaction) :
  forallb (fun t => negb (isSubmitBy a t)) history = true ->
  isDataOwner (run empty_storage history) a = false.
Proof.
  intros H. unfold isDataOwner.
  rewrite run_userFinancialData, (last_submission_none _ _ H).
  cbn. rewrite lookup_total_empty. apply isInitialized_zero.
Qed.

(** A simulation callback that passes the signature check and decodes to at
    least three values returns, in every storage and for every sender. *)
Lemma runSimulation_accepted (s : Storage) (a : address) (requestId : uint256)
  (results proof : bytes) (r0 r1 r2 : uint32) (rest : list uint32) :
  checkSignatures requestId results proof = true ->
  abi_decode_uint32_array results = Some (r0 :: r1 :: r2 :: rest) ->
  runSimulation a requestId results proof s
  = Returned tt (completed s a r0 r1 r2) [Emit (SimulationCompleted a)].
Proof. intros Hsig Hdec. now rewrite runSimulation_outcome, Hsig, Hdec. Qed.

(** A simulation callback that returns passed the signature check and
    decoded to at least three values. *)
Lemma runSimulation_returned (s s1 : Storage) (a : address) (requestId : uint256)
  (results proof : bytes) (log1 : list Effect) :
  runSimulation a requestId results proof s = Returned tt s1 log1 ->
  exists r0 r1 r2 rest,
    checkSignatures requestId results proof = true
    /\ abi_decode_uint32_array results = Some (r0 :: r1 :: r2 :: rest)
    /\ s1 = completed s a r0 r1 r2
    /\ log1 = [Emit (SimulationCompleted a)].
Proof.
  rewrite runSimulation_outcome.
  destruct (checkSignatures _ _ _); [| discriminate].
  destruct (abi_decode_uint32_array results) as [[| r0 [| r1 [| r2 rest]]] |];
    try discriminate.
  intros [= <- <-]. now exists r0, r1, r2, rest.
Qed.

Lemma completed_again (s : Storage) (a : address) (r0 r1 r2 : uint32) :
  completed (completed s a r0 r1 r2) a r0 r1 r2 = completed s a r0 r1 r2.
Proof. unfold completed. cbn. now rewrite insert_insert_eq. Qed.


(** ** The simulation callback *)

(** C1, as the contract has it: the callback keeps and consults no record of
    request identifiers.  A delivery that returns in one storage returns in
    every storage, with the same log, and writes the same [SimulationResult]
    to the sender's entry, leaving the financial records alone; delivered
    again right away it returns again and leaves the storage as the first
    delivery left it. *)
Theorem runSimulation_ignores_request_history
  (s s1 : Storage) (a : address) (requestId : uint256) (results proof : bytes)
  (log1 : list Effect) :
  runSimulation a requestId results proof s = Returned tt s1 log1 ->
  (forall s' : Storage, exists s2 : Storage,
      runSimulation a requestId results proof s' = Returned tt s2 log1
      /\ simulationResults s2 !!! a = simulationResults s1 !!! a
      /\ userFinancialData s2 = userFinancialData s')
  /\ runSimulation a requestId results proof s1 = Returned tt s1 log1.
Proof.
  intros H. destruct (runSimulation_returned _ _ _ _ _ _ _ H)
    as (r0 & r1 & r2 & rest & Hsig & Hdec & -> & ->).
  split.
  - intros s'. exists (completed s' a r0 r1 r2). split; [| split].
    + now apply runSimulation_accepted with (rest := rest).
    + unfold completed. cbn. now rewrite !lookup_total_insert_eq.
    + reflexivity.
  - rewrite (runSimulation_accepted _ a _ _ _ _ _ _ _ Hsig Hdec).
    now rewrite completed_again.
Qed.

(** C2, as the contract has it: a callback whose proof passes the check and
    whose result bytes decode to an array of at least three values returns;
    it writes the first three, as handles, and [isSimulated = true] into the
    [SimulationResult] of the sender of the callback, changes nothing else in
    the storage (there is no pending request to delete) and emits
    [SimulationCompleted] for the sender. *)
Theorem runSimulation_writes_sender_entry
  (s : Storage) (a : address) (requestId : uint256) (results proof : bytes)
  (r0 r1 r2 : uint32) (rest : list uint32) :
  checkSignatures requestId results proof = true ->
  abi_decode_uint32_array results = Some (r0 :: r1 :: r2 :: rest) ->
  exists s' : Storage,
    runSimulation a requestId results proof s
    = Returned tt s' [Emit (SimulationCompleted a)]
    /\ userFinancialData s' = userFinancialData s
    /\ simulationResults s'
       = <[a := {| encryptedStrategy := asEuint32 r0;
                   encryptedWithdrawal := asEuint32 r1;
                   encryptedSuccessRate := asEuint32 r2;
                   isSimulated := true |}]> (simulationResults s).
Proof.
  intros Hsig Hdec. exists (completed s a r0 r1 r2).
  split; [| split]; [| reflexivity | reflexivity].
  now apply runSimulation_accepted with (rest := rest).
Qed.


(** C4: a callback whose proof fails the check reverts with [InvalidProof];
    the storage is as before, and so is every owner's [isSimulated]. *)
Theorem runSimulation_invalid_proof_rejected
  (s : Storage) (a : address) (requestId : uint256) (results proof : bytes) :
  checkSignatures requestId results proof = false ->
  let t := {| sender_of := a; call_of := CallRunSimulation requestId results proof |} in
  runSimulation a requestId results proof s = Reverted InvalidProof
  /\ apply_tx s t = s
  /\ (forall o : address,
        isSimulated (simulationResults (apply_tx s t) !!! o)
        = isSimulated (simulationResults s !!! o)).
Proof.
  intros Hsig t. subst t.
  assert (Hrev : runSimulation a requestId results proof s = Reverted InvalidProof)
    by now rewrite runSimulation_outcome, Hsig.
  assert (Hsame : apply_tx s {| sender_of := a;
                                call_of := CallRunSimulation requestId results proof |} = s).
  { unfold apply_tx, dispatch. cbn [sender_of call_of]. now rewrite Hrev. }
  split; [exact Hrev | split; [exact Hsame |]].
  intros o. now rewrite Hsame.
Qed.

(** C7, as the contract has it: the callback does not look at the decoded
    strategy identifier.  Whatever its value, in [{1, 2, 3}] or not, a
    callback whose proof passes the check stores its handle and sets
    [isSimulated]. *)
Theorem runSimulation_stores_any_strategy
  (s : Storage) (a : address) (requestId : uint256) (results proof : bytes)
  (strategy withdrawal successRate : uint32) (rest : list uint32) :
  checkSignatures requestId results proof = true ->
  abi_decode_uint32_array results
  = Some (strategy :: withdrawal :: successRate :: rest) ->
  exists s' : Storage,
    runSimulation a requestId results proof s
    = Returned tt s' [Emit (SimulationCompleted a)]
    /\ encryptedStrategy (simulationResults s' !!! a) = asEuint32 strategy
    /\ isSimulated (simulationResults s' !!! a) = true.
Proof.
  intros Hsig Hdec. exists (completed s a strategy withdrawal successRate).
  split; [now apply runSimulation_accepted with (rest := rest) |].
  unfold completed. cbn. now rewrite lookup_total_insert_eq.
Qed.

(** ** Submission *)

Lemma apply_tx_submit (s : Storage) (a : address) (a1 a2 a3 a4 a5 : euint32) :
  simulationResults
    (apply_tx s {| sender_of := a;
                   call_of := CallSubmitEncryptedData a1 a2 a3 a4 a5 |}) !!! a
  = {| encryptedStrategy := asEuint32 0; encryptedWithdrawal := asEuint32 0;
       encryptedSuccessRate := asEuint32 0; isSimulated := false |}.
Proof.
  unfold apply_tx, dispatch. cbn [sender_of call_of].
  rewrite submitEncryptedData_outcome. cbn. apply lookup_total_insert_eq.
Qed.

(** C5: every call of [submitEncryptedData] returns; the sender's financial
    record is then the five fields of the call and the sender's
    [SimulationResult] is three handles of zero with [isSimulated = false],
    whatever the storage was, a completed simulation included.  So after a
    submission, any history and a second submission, [isSimulated] is
    false. *)
Theorem submit_replaces_record_and_resets_result
  (s : Storage) (a : address) (a1 a2 a3 a4 a5 : euint32) :
  let t := {| sender_of := a; call_of := CallSubmitEncryptedData a1 a2 a3 a4 a5 |} in
  submitEncryptedData a a1 a2 a3 a4 a5 s
  = Returned tt (apply_tx s t) [Emit (FinancialDataSubmitted a)]
  /\ userFinancialData (apply_tx s t) !!! a
     = {| encryptedAssets := a1; encryptedAnnualIncome := a2;
          encryptedRetirementAge := a3; encryptedLifeExpectancy := a4;
          encryptedTargetIncome := a5 |}
  /\ simulationResults (apply_tx s t) !!! a
     = {| encryptedStrategy := asEuint32 0; encryptedWithdrawal := asEuint32 0;
          encryptedSuccessRate := asEuint32 0; isSimulated := false |}
  /\ (forall (between : list Transaction) (b1 b2 b3 b4 b5 : euint32),
        isSimulated
          (simulationResults
             (run s ([t] ++ between
                     ++ [ {| sender_of := a;
                             call_of := CallSubmitEncryptedData b1 b2 b3 b4 b5 |} ]))
           !!! a) = false).
Proof.
  intros t. subst t. split; [| split; [| split]].
  - unfold apply_tx, dispatch. cbn [sender_of call_of].
    now rewrite submitEncryptedData_outcome.
  - rewrite apply_tx_userFinancialData. cbn [sender_of call_of].
    now rewrite Z.eqb_refl.
  - apply apply_tx_submit.
  - intros between b1 b2 b3 b4 b5.
    rewrite !run_app. cbn [run fold_left]. now rewrite apply_tx_submit.
Qed.

(** ** Requests *)

(** C6: [requestRetirementSimulation] reverts with [DataOwnerRequired] for a
    caller with no populated record; for a caller with one it reverts with
    [AlreadySimulated] when [isSimulated] is true, and otherwise returns,
    hands the five fields of the record to the library with the selector of
    [runSimulation], emits [SimulationRequested] for the caller and leaves
    the storage as it was. *)
Theorem requestRetirementSimulation_guards (s : Storage) (a : address) :
  (isDataOwner s a = false ->
   requestRetirementSimulation a s = Reverted DataOwnerRequired)
  /\ (isDataOwner s a = true ->
      isSimulated (simulationResults s !!! a) = true ->
      requestRetirementSimulation a s = Reverted AlreadySimulated)
  /\ (isDataOwner s a = true ->
      isSimulated (simulationResults s !!! a) = false ->
      requestRetirementSimulation a s
      = Returned tt s
          [ RequestComputation
              [ toBytes32 (encryptedAssets (userFinancialData s !!! a));
                toBytes32 (encryptedAnnualIncome (userFinancialData s !!! a));
                toBytes32 (encryptedRetirementAge (userFinancialData s !!! a));
                toBytes32 (encryptedLifeExpectancy (userFinancialData s !!! a));
                toBytes32 (encryptedTargetIncome (userFinancialData s !!! a)) ]
              runSimulation_selector;
            Emit (SimulationRequested a) ]).
Proof.
  rewrite requestRetirementSimulation_outcome.
  split; [| split].
  - now intros ->.
  - now intros -> ->.
  - now intros -> ->.
Qed.


(** ** The decryption callback *)

(** C9, as the contract has it: a decryption callback whose proof passes the
    check and whose cleartext decodes returns and emits [StrategyDecrypted]
    for the sender, an event whose only field is the address; the decoded
    strategy is in no event and in no storage field, and the storage after
    the callback is the storage before it. *)
Theorem decryptStrategy_emits_sender_only
  (s : Storage) (a : address) (requestId : uint256) (cleartexts proof : bytes)
  (strategy : uint32) :
  checkSignatures requestId cleartexts proof = true ->
  abi_decode_uint32 cleartexts = Some strategy ->
  decryptStrategy a requestId cleartexts proof s
  = Returned tt s [Emit (StrategyDecrypted a)]
  /\ apply_tx s {| sender_of := a;
                   call_of := CallDecryptStrategy requestId cleartexts proof |} = s.
Proof.
  intros Hsig Hdec.
  assert (H : decryptStrategy a requestId cleartexts proof s
              = Returned tt s [Emit (StrategyDecrypted a)])
    by now rewrite decryptStrategy_outcome, Hsig, Hdec.
  split; [exact H |].
  unfold apply_tx, dispatch. cbn [sender_of call_of]. now rewrite H.
Qed.

(** ** Reading the encrypted result *)

(** C10: in a history in which the caller submitted nothing, both reads
    revert with [DataOwnerRequired]; once the caller has a populated record
    both return the stored handle, with no test of [isSimulated], an empty
    log and the storage they were given. *)
Theorem encrypted_reads_guarded_and_pure (a : address) :
  (forall history : list Transaction,
      forallb (fun t => negb (isSubmitBy a t)) history = true ->
      getEncryptedWithdrawal a (run empty_storage history)
      = Reverted DataOwnerRequired
      /\ getEncryptedSuccessRate a (run empty_storage history)
         = Reverted DataOwnerRequired)
  /\ (forall s : Storage,
        isDataOwner s a = true ->
        getEncryptedWithdrawal a s
        = Returned (encryptedWithdrawal (simulationResults s !!! a)) s []
        /\ getEncryptedSuccessRate a s
           = Returned (encryptedSuccessRate (simulationResults s !!! a)) s []).
Proof.
  split.
  - intros history H.
    rewrite getEncryptedWithdrawal_outcome, getEncryptedSuccessRate_outcome.
    now rewrite (not_data_owner_without_submit a history H).
  - intros s H.
    rewrite getEncryptedWithdrawal_outcome, getEncryptedSuccessRate_outcome.
    now rewrite H.
Qed.

End Protocol.

(** * The contract on the reference implementation *)

Section Scenarios.

#[local] Existing Instance Reference.fhe.
#[local] Existing Instance Reference.abi.

Import Reference.

(** C1, as the specification has it, fails.  On the freshly deployed contract,
    where no request was ever made, a callback for request 42 returns and
    sets the sender's [isSimulated].  And after a whole cycle and a new
    submission, the callback that was already delivered is delivered again:
    it returns again and sets [isSimulated], which the submission had
    reset. *)
Lemma callback_unissued_and_replayed_accepted :
  let deliver := callback_by alice 42 [2; 4000; 95] in
  let later := run empty_storage
                 [submit_by alice; request_by alice; deliver; submit_by alice] in
  returned (dispatch deliver empty_storage) = true
  /\ isSimulated (simulationResults empty_storage !!! alice) = false
  /\ isSimulated (simulationResults (apply_tx empty_storage deliver) !!! alice) = true
  /\ returned (dispatch deliver later) = true
  /\ isSimulated (simulationResults later !!! alice) = false
  /\ isSimulated (simulationResults (apply_tx later deliver) !!! alice) = true.
Proof. vm_compute. repeat split; reflexivity. Qed.

Lemma runSimulation_ignores_request_history_witness :
  let results := abi_encode_uint32_array [2; 4000; 95] in
  let s1 := completed empty_storage alice 2 4000 95 in
  runSimulation alice 42 results (sign 42 results) empty_storage
  = Returned tt s1 [Emit (SimulationCompleted alice)]
  /\ ((forall s' : Storage, exists s2 : Storage,
         runSimulation alice 42 results (sign 42 results) s'
         = Returned tt s2 [Emit (SimulationCompleted alice)]
         /\ simulationResults s2 !!! alice = simulationResults s1 !!! alice
         /\ userFinancialData s2 = userFinancialData s')
      /\ runSimulation alice 42 results (sign 42 results) s1
         = Returned tt s1 [Emit (SimulationCompleted alice)]).
Proof.
  intros results s1.
  assert (H : runSimulation alice 42 results (sign 42 results) empty_storage
              = Returned tt s1 [Emit (SimulationCompleted alice)])
    by (vm_compute; reflexivity).
  split; [exact H |].
  exact (runSimulation_ignores_request_history
           empty_storage s1 alice 42 results (sign 42 results) _ H).
Defined.

(** C2, as the specification has it, fails.  [alice] submits and requests;
    the callback arrives from [relayer] with a proof the library accepts.
    It returns, [alice]'s [isSimulated] stays false, and the result is in
    [relayer]'s entry.  A result of four values is accepted as well. *)
Lemma callback_result_not_routed_to_requester :
  let requested := run empty_storage [submit_by alice; request_by alice] in
  let deliver := callback_by relayer 7 [2; 4000; 95] in
  returned (dispatch deliver requested) = true
  /\ isSimulated (simulationResults (apply_tx requested deliver) !!! alice) = false
  /\ simulationResults (apply_tx requested deliver) !!! relayer
     = {| encryptedStrategy := asEuint32 2; encryptedWithdrawal := asEuint32 4000;
          encryptedSuccessRate := asEuint32 95; isSimulated := true |}
  /\ returned (dispatch (callback_by alice 7 [2; 4000; 95; 11]) requested) = true.
Proof. vm_compute. repeat split; reflexivity. Qed.

Lemma runSimulation_writes_sender_entry_witness :
  let results := abi_encode_uint32_array [2; 4000; 95] in
  checkSignatures 7 results (sign 7 results) = true
  /\ abi_decode_uint32_array results = Some [2; 4000; 95]
  /\ exists s' : Storage,
       runSimulation relayer 7 results (sign 7 results) empty_storage
       = Returned tt s' [Emit (SimulationCompleted relayer)]
       /\ userFinancialData s' = userFinancialData empty_storage
       /\ simulationResults s'
          = <[relayer := {| encryptedStrategy := asEuint32 2;
                            encryptedWithdrawal := asEuint32 4000;
                            encryptedSuccessRate := asEuint32 95;
                            isSimulated := true |}]>
              (simulationResults empty_storage).
Proof.
  intros results.
  assert (Hsig : checkSignatures 7 results (sign 7 results) = true)
    by (vm_compute; reflexivity).
  assert (Hdec : abi_decode_uint32_array results = Some [2; 4000; 95])
    by (vm_compute; reflexivity).
  split; [exact Hsig | split; [exact Hdec |]].
  exact (runSimulation_writes_sender_entry
           empty_storage relayer 7 results (sign 7 results) 2 4000 95 [] Hsig Hdec).
Defined.


Lemma runSimulation_invalid_proof_rejected_witness :
  let results := abi_encode_uint32_array [2; 4000; 95] in
  let requested := run empty_storage [submit_by alice; request_by alice] in
  let t := {| sender_of := alice; call_of := CallRunSimulation 7 results [] |} in
  checkSignatures 7 results [] = false
  /\ runSimulation alice 7 results [] requested = Reverted InvalidProof
  /\ apply_tx requested t = requested
  /\ (forall o : address,
        isSimulated (simulationResults (apply_tx requested t) !!! o)
        = isSimulated (simulationResults requested !!! o)).
Proof.
  intros results requested t.
  assert (Hsig : checkSignatures 7 results [] = false) by (vm_compute; reflexivity).
  split; [exact Hsig |].
  exact (runSimulation_invalid_proof_rejected requested alice 7 results [] Hsig).
Defined.

(** C7, as the specification has it, fails: a callback whose strategy
    identifier is 7 returns, and the handle of 7 is stored. *)
Lemma callback_strategy_outside_enumeration_stored :
  let requested := run empty_storage [submit_by alice; request_by alice] in
  let deliver := callback_by alice 7 [7; 4000; 95] in
  7 <> FIXED_PERCENTAGE /\ 7 <> INFLATION_ADJUSTED /\ 7 <> DYNAMIC_SPENDING
  /\ returned (dispatch deliver requested) = true
  /\ simulationResults (apply_tx requested deliver) !!! alice
     = {| encryptedStrategy := asEuint32 7; encryptedWithdrawal := asEuint32 4000;
          encryptedSuccessRate := asEuint32 95; isSimulated := true |}.
Proof. vm_compute. repeat split; (reflexivity || discriminate). Qed.

Lemma runSimulation_stores_any_strategy_witness :
  let results := abi_encode_uint32_array [7; 4000; 95] in
  let requested := run empty_storage [submit_by alice; request_by alice] in
  checkSignatures 7 results (sign 7 results) = true
  /\ abi_decode_uint32_array results = Some [7; 4000; 95]
  /\ exists s' : Storage,
       runSimulation alice 7 results (sign 7 results) requested
       = Returned tt s' [Emit (SimulationCompleted alice)]
       /\ encryptedStrategy (simulationResults s' !!! alice) = asEuint32 7
       /\ isSimulated (simulationResults s' !!! alice) = true.
Proof.
  intros results requested.
  assert (Hsig : checkSignatures 7 results (sign 7 results) = true)
    by (vm_compute; reflexivity).
  assert (Hdec : abi_decode_uint32_array results = Some [7; 4000; 95])
    by (vm_compute; reflexivity).
  split; [exact Hsig | split; [exact Hdec |]].
  exact (runSimulation_stores_any_strategy
           requested alice 7 results (sign 7 results) 7 4000 95 [] Hsig Hdec).
Defined.

Lemma requestRetirementSimulation_guards_witness :
  let submitted := run empty_storage [submit_by alice] in
  let simulated := run empty_storage
                     [submit_by alice; callback_by alice 7 [2; 4000; 95]] in
  requestRetirementSimulation alice empty_storage = Reverted DataOwnerRequired
  /\ requestRetirementSimulation alice simulated = Reverted AlreadySimulated
  /\ requestRetirementSimulation alice submitted
     = Returned tt submitted
         [ RequestComputation
             [ toBytes32 (encryptedAssets (userFinancialData submitted !!! alice));
               toBytes32 (encryptedAnnualIncome (userFinancialData submitted !!! alice));
               toBytes32 (encryptedRetirementAge (userFinancialData submitted !!! alice));
               toBytes32 (encryptedLifeExpectancy (userFinancialData submitted !!! alice));
               toBytes32 (encryptedTargetIncome (userFinancialData submitted !!! alice)) ]
             runSimulation_selector;
           Emit (SimulationRequested alice) ].
Proof.
  intros submitted simulated. split; [| split].
  - apply (proj1 (requestRetirementSimulation_guards empty_storage alice)).
    vm_compute. reflexivity.
  - apply (proj1 (proj2 (requestRetirementSimulation_guards simulated alice)));
      vm_compute; reflexivity.
  - apply (proj2 (proj2 (requestRetirementSimulation_guards submitted alice)));
      vm_compute; reflexivity.
Defined.


(** C9, as the specification has it, fails: the callbacks for the cleartexts
    2 and 3 emit the same event, which has the sender and nothing else. *)
Lemma decrypted_strategy_not_in_event :
  let simulated := run empty_storage
                     [submit_by alice; request_by alice;
                      callback_by alice 7 [2; 4000; 95]] in
  returned (dispatch (cleartext_by alice 8 2) simulated) = true
  /\ log_of (dispatch (cleartext_by alice 8 2) simulated)
     = [Emit (StrategyDecrypted alice)]
  /\ log_of (dispatch (cleartext_by alice 8 3) simulated)
     = log_of (dispatch (cleartext_by alice 8 2) simulated).
Proof. vm_compute. repeat split; reflexivity. Qed.

Lemma decryptStrategy_emits_sender_only_witness :
  let cleartexts := abi_encode_uint32 2 in
  let simulated := run empty_storage
                     [submit_by alice; request_by alice;
                      callback_by alice 7 [2; 4000; 95]] in
  checkSignatures 8 cleartexts (sign 8 cleartexts) = true
  /\ abi_decode_uint32 cleartexts = Some 2
  /\ decryptStrategy alice 8 cleartexts (sign 8 cleartexts) simulated
     = Returned tt simulated [Emit (StrategyDecrypted alice)]
  /\ apply_tx simulated (cleartext_by alice 8 2) = simulated.
Proof.
  intros cleartexts simulated.
  assert (Hsig : checkSignatures 8 cleartexts (sign 8 cleartexts) = true)
    by (vm_compute; reflexivity).
  assert (Hdec : abi_decode_uint32 cleartexts = Some 2) by (vm_compute; reflexivity).
  split; [exact Hsig | split; [exact Hdec |]].
  exact (decryptStrategy_emits_sender_only
           simulated alice 8 cleartexts (sign 8 cleartexts) 2 Hsig Hdec).
Defined.

Lemma encrypted_reads_guarded_and_pure_witness :
  let others := [submit_by bob; request_by bob; callback_by alice 7 [2; 4000; 95]] in
  let submitted := run empty_storage [submit_by alice] in
  forallb (fun t => negb (isSubmitBy alice t)) others = true
  /\ isDataOwner submitted alice = true
  /\ getEncryptedWithdrawal alice (run empty_storage others)
     = Reverted DataOwnerRequired
  /\ getEncryptedSuccessRate alice (run empty_storage others)
     = Reverted DataOwnerRequired
  /\ getEncryptedWithdrawal alice submitted
     = Returned (encryptedWithdrawal (simulationResults submitted !!! alice))
         submitted []
  /\ getEncryptedSuccessRate alice submitted
     = Returned (encryptedSuccessRate (simulationResults submitted !!! alice))
         submitted [].
Proof.
  intros others submitted.
  assert (Hno : forallb (fun t => negb (isSubmitBy alice t)) others = true)
    by (vm_compute; reflexivity).
  assert (Hown : isDataOwner submitted alice = true) by (vm_compute; reflexivity).
  split; [exact Hno | split; [exact Hown |]].
  destruct (encrypted_reads_guarded_and_pure alice) as [Hbefore Hafter].
  destruct (Hbefore others Hno) as [Hw Hr].
  destruct (Hafter submitted Hown) as [Hw' Hr'].
  repeat split; assumption.
Defined.

End Scenarios.

(** * How the calls compose *)

Section Composition.

Context {fhe : FHELib} {abi : AbiDecoder}.

(** A transaction is one of two writes, or none: a submission writes both of
    the sender's entries, an accepted callback the sender's result. *)
Lemma apply_tx_update (s : Storage) (t : Transaction) :
  apply_tx s t
  = match call_of t with
    | CallSubmitEncryptedData a1 a2 a3 a4 a5 =>
        {| userFinancialData :=
             <[sender_of t :=
                 {| encryptedAssets := a1; encryptedAnnualIncome := a2;
                    encryptedRetirementAge := a3; encryptedLifeExpectancy := a4;
                    encryptedTargetIncome := a5 |}]> (userFinancialData s);
           simulationResults := <[sender_of t := reset_result]> (simulationResults s) |}
    | CallRunSimulation requestId results proof =>
        if checkSignatures requestId results proof
        then match abi_decode_uint32_array results with
             | Some (r0 :: r1 :: r2 :: _) => completed s (sender_of t) r0 r1 r2
             | _ => s
             end
        else s
    | _ => s
    end.
Proof.
  unfold apply_tx, dispatch. destruct t as [b c]; cbn [sender_of call_of].
  destruct c.
  - now rewrite submitEncryptedData_outcome.
  - rewrite requestRetirementSimulation_outcome.
    destruct (isDataOwner s b), (isSimulated (simulationResults s !!! b)); reflexivity.
  - rewrite runSimulation_outcome.
    destruct (checkSignatures _ _ _); [| reflexivity].
    destruct (abi_decode_uint32_array results) as [[| r0 [| r1 [| r2 rest]]] |];
      reflexivity.
  - rewrite requestStrategyDecryption_outcome.
    destruct (isDataOwner s b), (isSimulated (simulationResults s !!! b)); reflexivity.
  - rewrite decryptStrategy_outcome.
    destruct (checkSignatures _ _ _), (abi_decode_uint32 cleartexts); reflexivity.
  - unfold forget, bind. rewrite getEncryptedWithdrawal_outcome.
    destruct (isDataOwner s b); reflexivity.
  - unfold forget, bind. rewrite getEncryptedSuccessRate_outcome.
    destruct (isDataOwner s b); reflexivity.
Qed.

Lemma apply_tx_simulationResults (s : Storage) (t : Transaction) (a : address) :
  simulationResults (apply_tx s t) !!! a
  = match call_of t with
    | CallSubmitEncryptedData _ _ _ _ _ =>
        if Z.eqb (sender_of t) a then reset_result else simulationResults s !!! a
    | CallRunSimulation requestId results proof =>
        if Z.eqb (sender_of t) a && checkSignatures requestId results proof
        then match abi_decode_uint32_array results with
             | Some (r0 :: r1 :: r2 :: _) =>
                 {| encryptedStrategy := asEuint32 r0;
                    encryptedWithdrawal := asEuint32 r1;
                    encryptedSuccessRate := asEuint32 r2;
                    isSimulated := true |}
             | _ => simulationResults s !!! a
             end
        else simulationResults s !!! a
    | _ => simulationResults s !!! a
    end.
Proof.
  rewrite apply_tx_update. destruct t as [b c]; cbn [sender_of call_of].
  destruct c; try reflexivity.
  - cbn. destruct (Z.eqb_spec b a) as [-> | Hne].
    + apply lookup_total_insert_eq.
    + now apply lookup_total_insert_ne.
  - destruct (checkSignatures _ _ _); [| now rewrite andb_false_r].
    rewrite andb_true_r.
    destruct (abi_decode_uint32_array results) as [[| r0 [| r1 [| r2 rest]]] |];
      try (now destruct (b =? a)).
    unfold completed. cbn. destruct (Z.eqb_spec b a) as [-> | Hne].
    + apply lookup_total_insert_eq.
    + now apply lookup_total_insert_ne.
Qed.

(** A transaction changes no entry of an address other than its sender. *)
Lemma apply_tx_other_sender (s : Storage) (t : Transaction) (b : address) :
  b <> sender_of t ->
  userFinancialData (apply_tx s t) !!! b = userFinancialData s !!! b
  /\ simulationResults (apply_tx s t) !!! b = simulationResults s !!! b.
Proof.
  intros Hb. rewrite apply_tx_userFinancialData, apply_tx_simulationResults.
  assert (Hne : (sender_of t =? b) = false) by (apply Z.eqb_neq; congruence).
  rewrite Hne. cbn. split; destruct (call_of t); reflexivity.
Qed.

(** X1: nobody changes another user's entries.  After any history in which
    a user sent no transaction, the user's financial record and simulation
    result are what they were before it. *)
Theorem history_of_others_keeps_entries
  (history : list Transaction) (s : Storage) (a : address) :
  forallb (fun t => negb (Z.eqb (sender_of t) a)) history = true ->
  userFinancialData (run s history) !!! a = userFinancialData s !!! a
  /\ simulationResults (run s history) !!! a = simulationResults s !!! a.
Proof.
  revert s. induction history as [| t rest IH]; intros s Hno; [now split |].
  cbn in Hno. apply andb_true_iff in Hno as [Ht Hrest].
  rewrite run_cons. destruct (IH (apply_tx s t) Hrest) as [-> ->].
  apply apply_tx_other_sender.
  apply negb_true_iff, Z.eqb_neq in Ht. congruence.
Qed.

(** X2: the two requests, the decryption callback and the two reads leave the
    storage as it was, whether they return or revert. *)
Theorem requests_and_reads_keep_storage
  (s : Storage) (a : address) (requestId : uint256) (cleartexts proof : bytes) :
  apply_tx s {| sender_of := a; call_of := CallRequestRetirementSimulation |} = s
  /\ apply_tx s {| sender_of := a; call_of := CallRequestStrategyDecryption |} = s
  /\ apply_tx s {| sender_of := a;
                   call_of := CallDecryptStrategy requestId cleartexts proof |} = s
  /\ apply_tx s {| sender_of := a; call_of := CallGetEncryptedWithdrawal |} = s
  /\ apply_tx s {| sender_of := a; call_of := CallGetEncryptedSuccessRate |} = s.
Proof. rewrite !apply_tx_update. cbn. repeat split; reflexivity. Qed.

(** X3: after any history, a user's financial record is the five fields of
    the last [submitEncryptedData] the user sent in it, and the record the
    history started from if the user sent none. *)
Theorem record_is_last_submission
  (s : Storage) (history : list Transaction) (a : address) :
  userFinancialData (run s history) !!! a
  = default (userFinancialData s !!! a) (last_submission a history).
Proof.
  rewrite run_userFinancialData. now destruct (last_submission a history).
Qed.

Lemma isSimulated_provenance (history : list Transaction) (s : Storage) (a : address) :
  isSimulated (simulationResults (run s history) !!! a) = true ->
  isSimulated (simulationResults s !!! a) = true
  \/ exists requestId results proof,
       In {| sender_of := a; call_of := CallRunSimulation requestId results proof |}
          history
       /\ checkSignatures requestId results proof = true.
Proof.
  revert s. induction history as [| t rest IH]; intros s H; [now left |].
  rewrite run_cons in H. destruct (IH _ H) as [Hnow | (i & r & p & Hin & Hsig)].
  - rewrite apply_tx_simulationResults in Hnow.
    destruct t as [b c]; cbn [sender_of call_of] in *.
    destruct c; try (now left).
    + destruct (b =? a); [discriminate | now left].
    + destruct (Z.eqb_spec b a) as [-> | Hne]; cbn in Hnow; [| now left].
      destruct (checkSignatures requestId results proof) eqn:Hsig; [| now left].
      right. exists requestId, results, proof. split; [now left | exact Hsig].
  - right. exists i, r, p. split; [now right | exact Hsig].
Qed.

(** X4: on a contract deployed empty, [isSimulated] is true for a user only
    if the history holds a call of [runSimulation] sent by that user with a
    proof the signature check accepts. *)
Theorem isSimulated_only_by_own_callback (history : list Transaction) (a : address) :
  isSimulated (simulationResults (run empty_storage history) !!! a) = true ->
  exists requestId results proof,
    In {| sender_of := a; call_of := CallRunSimulation requestId results proof |}
       history
    /\ checkSignatures requestId results proof = true.
Proof.
  intros H. destruct (isSimulated_provenance _ _ _ H) as [Hinit | Hex]; [| exact Hex].
  cbn in Hinit. rewrite lookup_total_empty in Hinit. discriminate.
Qed.

Lemma apply_tx_submit_userFinancialData
  (s : Storage) (a : address) (a1 a2 a3 a4 a5 : euint32) :
  userFinancialData
    (apply_tx s {| sender_of := a;
                   call_of := CallSubmitEncryptedData a1 a2 a3 a4 a5 |}) !!! a
  = {| encryptedAssets := a1; encryptedAnnualIncome := a2;
       encryptedRetirementAge := a3; encryptedLifeExpectancy := a4;
       encryptedTargetIncome := a5 |}.
Proof.
  rewrite apply_tx_userFinancialData. cbn [sender_of call_of].
  now rewrite Z.eqb_refl.
Qed.

Lemma isDataOwner_after_submit
  (s : Storage) (a : address) (a1 a2 a3 a4 a5 : euint32) :
  isDataOwner (apply_tx s {| sender_of := a;
                             call_of := CallSubmitEncryptedData a1 a2 a3 a4 a5 |}) a
  = isInitialized a1.
Proof. unfold isDataOwner. now rewrite apply_tx_submit_userFinancialData. Qed.

(** X5: right after a submission whose assets handle is initialised,
    [requestRetirementSimulation] returns and hands the library the five
    handles just submitted, in the order of the struct, whatever the storage
    held before. *)
Theorem request_after_submit_sends_submitted_handles
  (s : Storage) (a : address) (a1 a2 a3 a4 a5 : euint32) :
  isInitialized a1 = true ->
  let s' := apply_tx s {| sender_of := a;
                          call_of := CallSubmitEncryptedData a1 a2 a3 a4 a5 |} in
  requestRetirementSimulation a s'
  = Returned tt s'
      [ RequestComputation
          [toBytes32 a1; toBytes32 a2; toBytes32 a3; toBytes32 a4; toBytes32 a5]
          runSimulation_selector;
        Emit (SimulationRequested a) ].
Proof.
  intros Hinit s'. subst s'.
  rewrite requestRetirementSimulation_outcome, isDataOwner_after_submit, Hinit.
  now rewrite apply_tx_submit, apply_tx_submit_userFinancialData.
Qed.

(** X6: a submission whose assets handle is not initialised returns and emits
    its event like any other, and locks the sender out: both requests and
    both reads then revert with "No data submitted", whatever the other four
    handles are. *)
Theorem uninitialised_assets_lock_out
  (s : Storage) (a : address) (a1 a2 a3 a4 a5 : euint32) :
  isInitialized a1 = false ->
  let t := {| sender_of := a; call_of := CallSubmitEncryptedData a1 a2 a3 a4 a5 |} in
  dispatch t s = Returned tt (apply_tx s t) [Emit (FinancialDataSubmitted a)]
  /\ requestRetirementSimulation a (apply_tx s t) = Reverted DataOwnerRequired
  /\ requestStrategyDecryption a (apply_tx s t) = Reverted DataOwnerRequired
  /\ getEncryptedWithdrawal a (apply_tx s t) = Reverted DataOwnerRequired
  /\ getEncryptedSuccessRate a (apply_tx s t) = Reverted DataOwnerRequired.
Proof.
  intros Hinit t. subst t.
  rewrite requestRetirementSimulation_outcome, requestStrategyDecryption_outcome,
    getEncryptedWithdrawal_outcome, getEncryptedSuccessRate_outcome,
    isDataOwner_after_submit, Hinit.
  split; [| repeat split].
  unfold apply_tx, dispatch. cbn [sender_of call_of].
  now rewrite submitEncryptedData_outcome.
Qed.

(** X7: the reads return what was written last.  After a submission with an
    initialised assets handle both return the handle of zero; after an
    accepted callback sent by the same user they return the handles of the
    second and third decoded values. *)
Theorem reads_return_last_written
  (s : Storage) (a : address) (a1 a2 a3 a4 a5 : euint32)
  (requestId : uint256) (results proof : bytes)
  (r0 r1 r2 : uint32) (rest : list uint32) :
  isInitialized a1 = true ->
  checkSignatures requestId results proof = true ->
  abi_decode_uint32_array results = Some (r0 :: r1 :: r2 :: rest) ->
  let s1 := apply_tx s {| sender_of := a;
                          call_of := CallSubmitEncryptedData a1 a2 a3 a4 a5 |} in
  let s2 := apply_tx s1 {| sender_of := a;
                           call_of := CallRunSimulation requestId results proof |} in
  getEncryptedWithdrawal a s1 = Returned (asEuint32 0) s1 []
  /\ getEncryptedSuccessRate a s1 = Returned (asEuint32 0) s1 []
  /\ getEncryptedWithdrawal a s2 = Returned (asEuint32 r1) s2 []
  /\ getEncryptedSuccessRate a s2 = Returned (asEuint32 r2) s2 [].
Proof.
  intros Hinit Hsig Hdec s1 s2.
  assert (Hown1 : isDataOwner s1 a = true)
    by (subst s1; now rewrite isDataOwner_after_submit).
  assert (Hown2 : isDataOwner s2 a = true).
  { subst s2. unfold isDataOwner. rewrite apply_tx_userFinancialData. exact Hown1. }
  assert (Hres1 : simulationResults s1 !!! a = reset_result)
    by (subst s1; apply apply_tx_submit).
  assert (Hres2 : simulationResults s2 !!! a
                  = {| encryptedStrategy := asEuint32 r0;
                       encryptedWithdrawal := asEuint32 r1;
                       encryptedSuccessRate := asEuint32 r2;
                       isSimulated := true |}).
  { subst s2. rewrite apply_tx_simulationResults. cbn [sender_of call_of].
    now rewrite Z.eqb_refl, Hsig, Hdec. }
  rewrite !getEncryptedWithdrawal_outcome, !getEncryptedSuccessRate_outcome,
    Hown1, Hown2, Hres1, Hres2.
  repeat split.
Qed.

(** X8: after a submission with an initialised assets handle and an accepted
    callback sent by the same user, [requestStrategyDecryption] returns and
    hands the library one ciphertext: the handle of the first decoded value,
    the strategy the callback delivered. *)
Theorem decryption_request_carries_delivered_strategy
  (s : Storage) (a : address) (a1 a2 a3 a4 a5 : euint32)
  (requestId : uint256) (results proof : bytes)
  (r0 r1 r2 : uint32) (rest : list uint32) :
  isInitialized a1 = true ->
  checkSignatures requestId results proof = true ->
  abi_decode_uint32_array results = Some (r0 :: r1 :: r2 :: rest) ->
  let s' := run s [ {| sender_of := a;
                       call_of := CallSubmitEncryptedData a1 a2 a3 a4 a5 |};
                    {| sender_of := a; call_of := CallRequestRetirementSimulation |};
                    {| sender_of := a;
                       call_of := CallRunSimulation requestId results proof |} ] in
  requestStrategyDecryption a s'
  = Returned tt s'
      [RequestDecryption [toBytes32 (asEuint32 r0)] decryptStrategy_selector].
Proof.
  intros Hinit Hsig Hdec s'. subst s'. cbn [run fold_left].
  set (s1 := apply_tx s _).
  assert (Hreq : apply_tx s1 {| sender_of := a;
                                call_of := CallRequestRetirementSimulation |} = s1)
    by now rewrite apply_tx_update.
  rewrite Hreq. set (s2 := apply_tx s1 _).
  assert (Hown : isDataOwner s2 a = true).
  { subst s2 s1. unfold isDataOwner. rewrite apply_tx_userFinancialData.
    cbn [call_of]. now rewrite apply_tx_submit_userFinancialData. }
  assert (Hres : simulationResults s2 !!! a
                 = {| encryptedStrategy := asEuint32 r0;
                      encryptedWithdrawal := asEuint32 r1;
                      encryptedSuccessRate := asEuint32 r2;
                      isSimulated := true |}).
  { subst s2. rewrite apply_tx_simulationResults. cbn [sender_of call_of].
    now rewrite Z.eqb_refl, Hsig, Hdec. }
  now rewrite requestStrategyDecryption_outcome, Hown, Hres.
Qed.

Lemma isSimulated_kept_without_submit
  (history : list Transaction) (s : Storage) (a : address) :
  forallb (fun t => negb (isSubmitBy a t)) history = true ->
  isSimulated (simulationResults s !!! a) = true ->
  isSimulated (simulationResults (run s history) !!! a) = true.
Proof.
  revert s. induction history as [| t rest IH]; intros s Hno Hsim; [exact Hsim |].
  cbn in Hno. apply andb_true_iff in Hno as [Ht Hrest].
  rewrite run_cons. apply (IH _ Hrest).
  rewrite apply_tx_simulationResults. unfold isSubmitBy in Ht.
  destruct (call_of t); try exact Hsim.
  - destruct (sender_of t =? a); [discriminate | exact Hsim].
  - destruct (_ && _); [| exact Hsim].
    destruct (abi_decode_uint32_array results) as [[| r0 [| r1 [| r2 rest']]] |];
      (exact Hsim || reflexivity).
Qed.

(** X9: once a data owner's simulation is marked completed, the owner's
    [requestRetirementSimulation] reverts with "Simulation already completed"
    after any history in which the owner sends no [submitEncryptedData]:
    nothing but the owner's own resubmission opens the request again. *)
Theorem completed_blocks_request_until_resubmission
  (s : Storage) (a : address) (history : list Transaction) :
  isDataOwner s a = true ->
  isSimulated (simulationResults s !!! a) = true ->
  forallb (fun t => negb (isSubmitBy a t)) history = true ->
  requestRetirementSimulation a (run s history) = Reverted AlreadySimulated.
Proof.
  intros Hown Hsim Hno.
  rewrite requestRetirementSimulation_outcome.
  assert (Hown' : isDataOwner (run s history) a = true).
  { unfold isDataOwner. rewrite run_userFinancialData.
    now rewrite (last_submission_none _ _ Hno). }
  now rewrite Hown', (isSimulated_kept_without_submit _ _ _ Hno Hsim).
Qed.

(** X10: a simulation callback returns exactly when the signature check
    accepts and the result bytes decode to an array of three values or more;
    neither the storage nor the sender has a part in it. *)
Theorem runSimulation_returns_iff
  (s : Storage) (a : address) (requestId : uint256) (results proof : bytes) :
  returned (runSimulation a requestId results proof s)
  = checkSignatures requestId results proof
    && match abi_decode_uint32_array results with
       | Some l => Nat.leb 3 (length l)
       | None => false
       end.
Proof.
  rewrite runSimulation_outcome.
  destruct (checkSignatures _ _ _); [| reflexivity].
  destruct (abi_decode_uint32_array results) as [[| r0 [| r1 [| r2 rest]]] |];
    reflexivity.
Qed.

(** X11: with a proof the check accepts, result bytes that do not decode
    revert the callback as a decoding failure, and an array of fewer than
    three values reverts it with the out-of-bounds panic; either way the
    storage is as before. *)
Theorem runSimulation_rejects_short_results
  (s : Storage) (a : address) (requestId : uint256) (results proof : bytes) :
  checkSignatures requestId results proof = true ->
  let t := {| sender_of := a; call_of := CallRunSimulation requestId results proof |} in
  (abi_decode_uint32_array results = None ->
   runSimulation a requestId results proof s = Reverted AbiDecodeFailed
   /\ apply_tx s t = s)
  /\ (forall l : list uint32,
        abi_decode_uint32_array results = Some l ->
        (length l < 3)%nat ->
        runSimulation a requestId results proof s = Reverted ArrayOutOfBounds
        /\ apply_tx s t = s).
Proof.
  intros Hsig t. subst t. split.
  - intros Hdec. rewrite runSimulation_outcome, apply_tx_update, Hsig, Hdec.
    cbn. now rewrite Hsig, Hdec.
  - intros l Hdec Hlen. rewrite runSimulation_outcome, apply_tx_update, Hsig, Hdec.
    cbn. rewrite Hsig, Hdec.
    destruct l as [| r0 [| r1 [| r2 rest]]]; cbn in Hlen; try lia; now split.
Qed.

(** X12: a submission erases what the sender's previous transaction did:
    whatever transaction the sender sent just before, the storage after the
    submission is the one the submission alone would leave. *)
Theorem submit_overwrites_previous_transaction
  (s : Storage) (t : Transaction) (a1 a2 a3 a4 a5 : euint32) :
  let submit := {| sender_of := sender_of t;
                   call_of := CallSubmitEncryptedData a1 a2 a3 a4 a5 |} in
  apply_tx (apply_tx s t) submit = apply_tx s submit.
Proof.
  intros submit.
  rewrite (apply_tx_update (apply_tx s t) submit), (apply_tx_update s submit).
  subst submit. cbn [sender_of call_of]. rewrite (apply_tx_update s t).
  destruct (call_of t); try reflexivity.
  - cbn. now rewrite !insert_insert_eq.
  - destruct (checkSignatures _ _ _); [| reflexivity].
    destruct (abi_decode_uint32_array results) as [[| r0 [| r1 [| r2 rest]]] |];
      try reflexivity.
    unfold completed. cbn. now rewrite insert_insert_eq.
Qed.

(** X13: transactions of two different senders commute: applied in either
    order they leave the same storage. *)
Theorem transactions_of_different_senders_commute
  (s : Storage) (t1 t2 : Transaction) :
  sender_of t1 <> sender_of t2 ->
  apply_tx (apply_tx s t1) t2 = apply_tx (apply_tx s t2) t1.
Proof.
  intros Hne.
  rewrite (apply_tx_update (apply_tx s t1) t2), (apply_tx_update (apply_tx s t2) t1).
  rewrite (apply_tx_update s t1), (apply_tx_update s t2).
  destruct t1 as [b1 c1], t2 as [b2 c2]; cbn [sender_of call_of] in *.
  destruct c1, c2; try reflexivity;
    repeat match goal with
      | |- context [checkSignatures ?i ?r ?p] => destruct (checkSignatures i r p)
      | |- context [abi_decode_uint32_array ?r] =>
          destruct (abi_decode_uint32_array r) as [[| ? [| ? [| ? ?]]] |]
      end;
    try reflexivity;
    unfold completed; cbn; f_equal; now apply insert_insert_ne.
Qed.

(** X14: every event a call emits carries the address of the sender of the
    call. *)
Theorem events_carry_the_sender (s : Storage) (t : Transaction) (e : Event) :
  In (Emit e) (log_of (dispatch t s)) -> event_user e = sender_of t.
Proof.
  unfold dispatch. destruct t as [b c]; cbn [sender_of call_of].
  destruct c;
    [ rewrite submitEncryptedData_outcome
    | rewrite requestRetirementSimulation_outcome;
      destruct (isDataOwner s b), (isSimulated (simulationResults s !!! b))
    | rewrite runSimulation_outcome;
      destruct (checkSignatures requestId results proof);
      [ destruct (abi_decode_uint32_array results) as [[| r0 [| r1 [| r2 rest]]] |] | ]
    | rewrite requestStrategyDecryption_outcome;
      destruct (isDataOwner s b), (isSimulated (simulationResults s !!! b))
    | rewrite decryptStrategy_outcome;
      destruct (checkSignatures requestId cleartexts proof),
        (abi_decode_uint32 cleartexts)
    | unfold forget, bind; rewrite getEncryptedWithdrawal_outcome;
      destruct (isDataOwner s b)
    | unfold forget, bind; rewrite getEncryptedSuccessRate_outcome;
      destruct (isDataOwner s b) ];
    cbn; intros Hin;
    repeat (destruct Hin as [Hin | Hin]);
    try contradiction; try discriminate;
    injection Hin as <-; reflexivity.
Qed.

(** X15: the decryption callback returns exactly when the signature check
    accepts and the cleartext decodes, for every sender and in every storage:
    it asks neither for a record, nor for a completed simulation, nor for a
    strategy among the three constants. *)
Theorem decryptStrategy_returns_iff
  (s : Storage) (a : address) (requestId : uint256) (cleartexts proof : bytes) :
  returned (decryptStrategy a requestId cleartexts proof s)
  = checkSignatures requestId cleartexts proof
    && match abi_decode_uint32 cleartexts with
       | Some _ => true
       | None => false
       end.
Proof.
  rewrite decryptStrategy_outcome.
  destruct (checkSignatures _ _ _), (abi_decode_uint32 cleartexts); reflexivity.
Qed.

End Composition.

(** * The dashboard *)

Section DashboardProperties.

Import Dashboard.

Variable toLowerCase : string -> string.

Lemma append_cons (c : Ascii.ascii) (x y : string) :
  String.append (String c x) y = String c (String.append x y).
Proof. reflexivity. Qed.

Lemma append_nil (y : string) : String.append EmptyString y = y.
Proof. reflexivity. Qed.

Lemma prefix_append (sub s : string) :
  String.prefix sub s = true <-> exists post, s = String.append sub post.
Proof.
  revert s. induction sub as [| c sub IH]; intros s.
  - split; [intros _; now exists s | intros _; now destruct s].
  - destruct s as [| d s]; cbn [String.prefix].
    + split; [discriminate | intros [post H]; discriminate].
    + destruct (Ascii.ascii_dec c d) as [-> | Hne].
      * rewrite IH. split; intros [post H]; exists post;
          rewrite append_cons in *; congruence.
      * split; [discriminate |].
        intros [post H]. rewrite append_cons in H. congruence.
Qed.

Lemma includes_occurs (s sub : string) :
  includes s sub = true
  <-> exists pre post, s = String.append pre (String.append sub post).
Proof.
  induction s as [| c s IH]; cbn [includes]; rewrite orb_true_iff, prefix_append.
  - split.
    + intros [[post H] | H]; [| discriminate]. now exists EmptyString, post.
    + intros (pre & post & H). left. destruct pre as [| d pre].
      * rewrite append_nil in H. now exists post.
      * rewrite append_cons in H. discriminate.
  - rewrite IH. split.
    + intros [[post H] | (pre & post & H)].
      * now exists EmptyString, post.
      * exists (String c pre), post. rewrite append_cons. now rewrite H.
    + intros (pre & post & H). destruct pre as [| d pre].
      * rewrite append_nil in H. left. now exists post.
      * rewrite append_cons in H. right. exists pre, post. congruence.
Qed.

Lemma append_assoc (x y z : string) :
  String.append (String.append x y) z = String.append x (String.append y z).
Proof.
  induction x as [| c x IH]; [reflexivity |].
  now rewrite !append_cons, IH.
Qed.

Lemma includes_trans (s t u : string) :
  includes s t = true -> includes t u = true -> includes s u = true.
Proof.
  rewrite !includes_occurs. intros (p1 & q1 & ->) (p2 & q2 & ->).
  exists (String.append p1 p2), (String.append q2 q1).
  now rewrite !append_assoc.
Qed.

Lemma includes_empty (s : string) : includes s "" = true.
Proof. apply includes_occurs. now exists EmptyString, s. Qed.

(** X16: a plan is counted as active, as archived, or in neither counter,
    never in both: the two counters and the number of plans in any other
    status add up to the number of plans. *)
Theorem counters_partition_plans (plans : list RetirementPlan) :
  (activePlans plans + archivedPlans plans
   + length (List.filter
               (fun p => negb (String.eqb (status p) "active")
                         && negb (String.eqb (status p) "archived")) plans)
   = length plans)%nat.
Proof.
  unfold activePlans, archivedPlans.
  induction plans as [| p plans IH]; [reflexivity |]. cbn [List.filter].
  destruct (String.eqb_spec (status p) "active") as [He | Hne].
  - rewrite He. cbn. lia.
  - destruct (String.eqb (status p) "archived"); cbn; lia.
Qed.

(** X17: when the search term lower-cases to the empty string, the search
    leaves every plan, in the order of the list. *)
Theorem empty_search_shows_all (plans : list RetirementPlan) (searchTerm : string) :
  toLowerCase searchTerm = ""%string ->
  filteredPlans toLowerCase plans searchTerm = plans.
Proof.
  intros Hempty. unfold filteredPlans. rewrite Hempty.
  induction plans as [| p plans IH]; [reflexivity |]. cbn [List.filter].
  now rewrite includes_empty, IH.
Qed.

Lemma filter_of_filter {A : Type} (f g : A -> bool) (l : list A) :
  (forall x, g x = true -> f x = true) ->
  List.filter g (List.filter f l) = List.filter g l.
Proof.
  intros Himp. induction l as [| x l IH]; [reflexivity |]. cbn [List.filter].
  destruct (g x) eqn:Hg.
  - rewrite (Himp x Hg). cbn [List.filter]. rewrite Hg. now f_equal.
  - destruct (f x); [cbn [List.filter]; rewrite Hg |]; exact IH.
Qed.

(** X18: a longer search term only narrows the result.  When the lower-cased
    first term occurs in the lower-cased second, searching the second term
    among the plans the first one left gives what searching it among all
    plans gives: no plan the first term filtered out comes back. *)
Theorem longer_search_narrows
  (plans : list RetirementPlan) (term1 term2 : string) :
  includes (toLowerCase term2) (toLowerCase term1) = true ->
  filteredPlans toLowerCase (filteredPlans toLowerCase plans term1) term2
  = filteredPlans toLowerCase plans term2.
Proof.
  intros Hsub. unfold filteredPlans. apply filter_of_filter.
  intros p H2. apply orb_true_iff. apply orb_true_iff in H2 as [H | H];
    [left | right]; exact (includes_trans _ _ _ H Hsub).
Qed.

(** X19: the archive button shows on active plans only: the cards that show
    it are never more than the counter of active plans. *)
Theorem archive_buttons_at_most_active
  (account : string) (plans : list RetirementPlan) :
  (length (List.filter (showsArchive toLowerCase account) plans)
   <= activePlans plans)%nat.
Proof.
  unfold activePlans, showsArchive.
  induction plans as [| p plans IH]; [reflexivity |]. cbn [List.filter].
  destruct (String.eqb (status p) "active").
  - destruct (isOwner toLowerCase account (owner p)); cbn; lia.
  - rewrite andb_false_r. exact IH.
Qed.

End DashboardProperties.

(** * The compositions on the reference implementation *)

Section Runs.

#[local] Existing Instance Reference.fhe.
#[local] Existing Instance Reference.abi.

Import Reference.

Lemma history_of_others_keeps_entries_witness :
  let s := run empty_storage [submit_by alice; callback_by alice 7 [2; 4000; 95]] in
  let history := [submit_by bob; callback_by bob 8 [3; 1; 1];
                  callback_by relayer 7 [1; 2; 3]; request_by bob] in
  forallb (fun t => negb (Z.eqb (sender_of t) alice)) history = true
  /\ userFinancialData (run s history) !!! alice = userFinancialData s !!! alice
  /\ simulationResults (run s history) !!! alice = simulationResults s !!! alice.
Proof.
  intros s history.
  assert (Hno : forallb (fun t => negb (Z.eqb (sender_of t) alice)) history = true)
    by (vm_compute; reflexivity).
  split; [exact Hno |].
  exact (history_of_others_keeps_entries history s alice Hno).
Defined.

Lemma isSimulated_only_by_own_callback_witness :
  let history := [submit_by alice; callback_by alice 7 [2; 4000; 95]] in
  isSimulated (simulationResults (run empty_storage history) !!! alice) = true
  /\ exists requestId results proof,
       In {| sender_of := alice;
             call_of := CallRunSimulation requestId results proof |} history
       /\ checkSignatures requestId results proof = true.
Proof.
  intros history.
  assert (H : isSimulated (simulationResults (run empty_storage history) !!! alice)
              = true) by (vm_compute; reflexivity).
  split; [exact H |].
  exact (isSimulated_only_by_own_callback history alice H).
Defined.

Lemma request_after_submit_sends_submitted_handles_witness :
  let s' := apply_tx empty_storage (submit_by alice) in
  isInitialized (asEuint32 500000) = true
  /\ requestRetirementSimulation alice s'
     = Returned tt s'
         [ RequestComputation
             [ toBytes32 (asEuint32 500000); toBytes32 (asEuint32 60000);
               toBytes32 (asEuint32 65); toBytes32 (asEuint32 90);
               toBytes32 (asEuint32 40000) ]
             runSimulation_selector;
           Emit (SimulationRequested alice) ].
Proof.
  intros s'.
  assert (H : isInitialized (asEuint32 500000) = true) by (vm_compute; reflexivity).
  split; [exact H |].
  exact (request_after_submit_sends_submitted_handles empty_storage alice
           (asEuint32 500000) (asEuint32 60000) (asEuint32 65) (asEuint32 90)
           (asEuint32 40000) H).
Defined.

Lemma uninitialised_assets_lock_out_witness :
  let t := {| sender_of := alice;
              call_of := CallSubmitEncryptedData 0 (asEuint32 60000) (asEuint32 65)
                           (asEuint32 90) (asEuint32 40000) |} in
  isInitialized 0 = false
  /\ dispatch t empty_storage
     = Returned tt (apply_tx empty_storage t) [Emit (FinancialDataSubmitted alice)]
  /\ requestRetirementSimulation alice (apply_tx empty_storage t)
     = Reverted DataOwnerRequired
  /\ requestStrategyDecryption alice (apply_tx empty_storage t)
     = Reverted DataOwnerRequired
  /\ getEncryptedWithdrawal alice (apply_tx empty_storage t)
     = Reverted DataOwnerRequired
  /\ getEncryptedSuccessRate alice (apply_tx empty_storage t)
     = Reverted DataOwnerRequired.
Proof.
  intros t.
  assert (H : isInitialized 0 = false) by (vm_compute; reflexivity).
  split; [exact H |].
  exact (uninitialised_assets_lock_out empty_storage alice 0 (asEuint32 60000)
           (asEuint32 65) (asEuint32 90) (asEuint32 40000) H).
Defined.

Lemma reads_return_last_written_witness :
  let results := abi_encode_uint32_array [2; 4000; 95] in
  let s1 := apply_tx empty_storage (submit_by alice) in
  let s2 := apply_tx s1 (callback_by alice 7 [2; 4000; 95]) in
  isInitialized (asEuint32 500000) = true
  /\ checkSignatures 7 results (sign 7 results) = true
  /\ abi_decode_uint32_array results = Some [2; 4000; 95]
  /\ getEncryptedWithdrawal alice s1 = Returned (asEuint32 0) s1 []
  /\ getEncryptedSuccessRate alice s1 = Returned (asEuint32 0) s1 []
  /\ getEncryptedWithdrawal alice s2 = Returned (asEuint32 4000) s2 []
  /\ getEncryptedSuccessRate alice s2 = Returned (asEuint32 95) s2 [].
Proof.
  intros results s1 s2.
  assert (Hinit : isInitialized (asEuint32 500000) = true) by (vm_compute; reflexivity).
  assert (Hsig : checkSignatures 7 results (sign 7 results) = true)
    by (vm_compute; reflexivity).
  assert (Hdec : abi_decode_uint32_array results = Some [2; 4000; 95])
    by (vm_compute; reflexivity).
  split; [exact Hinit | split; [exact Hsig | split; [exact Hdec |]]].
  exact (reads_return_last_written empty_storage alice
           (asEuint32 500000) (asEuint32 60000) (asEuint32 65) (asEuint32 90)
           (asEuint32 40000) 7 results (sign 7 results) 2 4000 95 []
           Hinit Hsig Hdec).
Defined.

Lemma decryption_request_carries_delivered_strategy_witness :
  let results := abi_encode_uint32_array [2; 4000; 95] in
  let s' := run empty_storage
              [submit_by alice; request_by alice; callback_by alice 7 [2; 4000; 95]] in
  isInitialized (asEuint32 500000) = true
  /\ checkSignatures 7 results (sign 7 results) = true
  /\ abi_decode_uint32_array results = Some [2; 4000; 95]
  /\ requestStrategyDecryption alice s'
     = Returned tt s'
         [RequestDecryption [toBytes32 (asEuint32 2)] decryptStrategy_selector].
Proof.
  intros results s'.
  assert (Hinit : isInitialized (asEuint32 500000) = true) by (vm_compute; reflexivity).
  assert (Hsig : checkSignatures 7 results (sign 7 results) = true)
    by (vm_compute; reflexivity).
  assert (Hdec : abi_decode_uint32_array results = Some [2; 4000; 95])
    by (vm_compute; reflexivity).
  split; [exact Hinit | split; [exact Hsig | split; [exact Hdec |]]].
  exact (decryption_request_carries_delivered_strategy empty_storage alice
           (asEuint32 500000) (asEuint32 60000) (asEuint32 65) (asEuint32 90)
           (asEuint32 40000) 7 results (sign 7 results) 2 4000 95 []
           Hinit Hsig Hdec).
Defined.

Lemma completed_blocks_request_until_resubmission_witness :
  let s := run empty_storage [submit_by alice; callback_by alice 7 [2; 4000; 95]] in
  let history := [submit_by bob; request_by bob; request_by alice;
                  callback_by alice 9 [3; 1; 1]] in
  isDataOwner s alice = true
  /\ isSimulated (simulationResults s !!! alice) = true
  /\ forallb (fun t => negb (isSubmitBy alice t)) history = true
  /\ requestRetirementSimulation alice (run s history) = Reverted AlreadySimulated.
Proof.
  intros s history.
  assert (Hown : isDataOwner s alice = true) by (vm_compute; reflexivity).
  assert (Hsim : isSimulated (simulationResults s !!! alice) = true)
    by (vm_compute; reflexivity).
  assert (Hno : forallb (fun t => negb (isSubmitBy alice t)) history = true)
    by (vm_compute; reflexivity).
  split; [exact Hown | split; [exact Hsim | split; [exact Hno |]]].
  exact (completed_blocks_request_until_resubmission s alice history Hown Hsim Hno).
Defined.

Lemma runSimulation_rejects_short_results_witness :
  let short := abi_encode_uint32_array [2; 4000] in
  checkSignatures 7 [] (sign 7 []) = true
  /\ abi_decode_uint32_array [] = None
  /\ checkSignatures 7 short (sign 7 short) = true
  /\ abi_decode_uint32_array short = Some [2; 4000]
  /\ runSimulation alice 7 [] (sign 7 []) empty_storage = Reverted AbiDecodeFailed
  /\ runSimulation alice 7 short (sign 7 short) empty_storage
     = Reverted ArrayOutOfBounds
  /\ apply_tx empty_storage
       {| sender_of := alice; call_of := CallRunSimulation 7 short (sign 7 short) |}
     = empty_storage.
Proof.
  intros short.
  assert (Hsig0 : checkSignatures 7 [] (sign 7 []) = true) by (vm_compute; reflexivity).
  assert (Hdec0 : abi_decode_uint32_array [] = None) by (vm_compute; reflexivity).
  assert (Hsig : checkSignatures 7 short (sign 7 short) = true)
    by (vm_compute; reflexivity).
  assert (Hdec : abi_decode_uint32_array short = Some [2; 4000])
    by (vm_compute; reflexivity).
  split; [exact Hsig0 | split; [exact Hdec0 |]].
  split; [exact Hsig | split; [exact Hdec |]].
  split.
  - exact (proj1 (proj1 (runSimulation_rejects_short_results
                           empty_storage alice 7 [] (sign 7 []) Hsig0) Hdec0)).
  - apply (proj2 (runSimulation_rejects_short_results
                    empty_storage alice 7 short (sign 7 short) Hsig) [2; 4000] Hdec).
    cbn. lia.
Defined.

Lemma transactions_of_different_senders_commute_witness :
  let t1 := submit_by alice in
  let t2 := callback_by bob 7 [2; 4000; 95] in
  sender_of t1 <> sender_of t2
  /\ apply_tx (apply_tx empty_storage t1) t2 = apply_tx (apply_tx empty_storage t2) t1.
Proof.
  intros t1 t2.
  assert (Hne : sender_of t1 <> sender_of t2) by (vm_compute; discriminate).
  split; [exact Hne |].
  exact (transactions_of_different_senders_commute empty_storage t1 t2 Hne).
Defined.

Lemma events_carry_the_sender_witness :
  let s := run empty_storage [submit_by alice] in
  In (Emit (SimulationRequested alice)) (log_of (dispatch (request_by alice) s))
  /\ event_user (SimulationRequested alice) = sender_of (request_by alice).
Proof.
  intros s.
  assert (Hin : In (Emit (SimulationRequested alice))
                   (log_of (dispatch (request_by alice) s)))
    by (vm_compute; right; left; reflexivity).
  split; [exact Hin |].
  exact (events_carry_the_sender s (request_by alice) (SimulationRequested alice) Hin).
Defined.

Lemma empty_search_shows_all_witness :
  Dashboard.lower "" = ""%string
  /\ Dashboard.filteredPlans Dashboard.lower Dashboard.sample_plans ""
     = Dashboard.sample_plans.
Proof.
  assert (H : Dashboard.lower "" = ""%string) by reflexivity.
  split; [exact H |].
  exact (empty_search_shows_all Dashboard.lower Dashboard.sample_plans "" H).
Defined.

Lemma longer_search_narrows_witness :
  Dashboard.includes (Dashboard.lower "Retirement") (Dashboard.lower "retire") = true
  /\ Dashboard.filteredPlans Dashboard.lower
       (Dashboard.filteredPlans Dashboard.lower Dashboard.sample_plans "retire")
       "Retirement"
     = Dashboard.filteredPlans Dashboard.lower Dashboard.sample_plans "Retirement".
Proof.
  assert (H : Dashboard.includes (Dashboard.lower "Retirement")
                (Dashboard.lower "retire") = true) by (vm_compute; reflexivity).
  split; [exact H |].
  exact (longer_search_narrows Dashboard.lower Dashboard.sample_plans
           "retire" "Retirement" H).
Defined.

End Runs.

